(** * CopyOnWriteUnionFs (afero, union_cow.go)

    A shallow embedding of the copy-on-write union filesystem: a read-only
    base [Fs] with a writable [layer] on top.  The two collaborators are
    arbitrary implementations of the [Fs] interface; every method of the
    union is a computation that threads the states of both collaborators
    and records, in order, the collaborator calls it issues. *)

From Stdlib Require Import ZArith String List Bool.
Import ListNotations.
Local Open Scope Z_scope.
Local Open Scope string_scope.
Local Open Scope list_scope.

(** ** Values exchanged with the collaborators *)

(** Go's [error] interface.  A comparison [err == syscall.ENOENT] holds only
    for the bare [syscall.Errno] value; an [*os.PathError] that wraps the same
    number, or any other error value, is a different interface value. *)
Inductive error : Type :=
| Errno (code : Z)
| PathError (op path : string) (code : Z)
| ErrorString (msg : string).

Definition error_eqb (a b : error) : bool :=
  match a, b with
  | Errno x, Errno y => Z.eqb x y
  | PathError o p x, PathError o' p' y =>
      String.eqb o o' && String.eqb p p' && Z.eqb x y
  | ErrorString m, ErrorString m' => String.eqb m m'
  | _, _ => false
  end.

(** The [syscall] error numbers the file names (Linux values). *)
Definition EPERM : error := Errno 1.
Definition ENOENT : error := Errno 2.
Definition EIO : error := Errno 5.
Definition EEXIST : error := Errno 17.

(** [os.O_*] flags of [OpenFile] (Linux values); [flag] is a Go [int]. *)
Definition O_RDONLY : Z := 0.
Definition O_WRONLY : Z := 1.
Definition O_RDWR : Z := 2.
Definition O_CREATE : Z := 64.
Definition O_TRUNC : Z := 512.
Definition O_APPEND : Z := 1024.

Definition FileMode : Type := Z.
Definition Time : Type := Z.

(** [os.FileInfo], reduced to its accessors. *)
Record FileInfo : Type := mkFileInfo {
  fi_Name : string;
  fi_Size : Z;
  fi_Mode : FileMode;
  fi_ModTime : Time;
  fi_IsDir : bool
}.

(** [err == nil] *)
Definition is_nil (e : option error) : bool :=
  match e with None => true | Some _ => false end.

(** [f == nil] for a returned handle *)
Definition no_handle {H : Type} (f : option H) : bool :=
  match f with None => true | Some _ => false end.

(** ** The [Fs] interface

    Every method may change the state [S] of the filesystem that implements
    it and returns Go's result tuple; a handle and an error are independent
    components, as in Go. *)
Record Fs (H S : Type) : Type := mkFs {
  fs_Create : string -> S -> (option H * option error) * S;
  fs_Mkdir : string -> FileMode -> S -> option error * S;
  fs_MkdirAll : string -> FileMode -> S -> option error * S;
  fs_Open : string -> S -> (option H * option error) * S;
  fs_OpenFile : string -> Z -> FileMode -> S -> (option H * option error) * S;
  fs_Remove : string -> S -> option error * S;
  fs_RemoveAll : string -> S -> option error * S;
  fs_Rename : string -> string -> S -> option error * S;
  fs_Stat : string -> S -> (option FileInfo * option error) * S;
  fs_Chmod : string -> FileMode -> S -> option error * S;
  fs_Chtimes : string -> Time -> Time -> S -> option error * S
}.

Arguments fs_Create {H S}.
Arguments fs_Mkdir {H S}.
Arguments fs_MkdirAll {H S}.
Arguments fs_Open {H S}.
Arguments fs_OpenFile {H S}.
Arguments fs_Remove {H S}.
Arguments fs_RemoveAll {H S}.
Arguments fs_Rename {H S}.
Arguments fs_Stat {H S}.
Arguments fs_Chmod {H S}.
Arguments fs_Chtimes {H S}.

(** The [File] values the union hands out: a handle obtained from one of the
    two collaborators, or the [UnionFile] built by [Open], whose two halves
    may each be nil. *)
Inductive File (H : Type) : Type :=
| FsFile (h : H)
| UnionFile (base layer : option H).

Arguments FsFile {H}.
Arguments UnionFile {H}.

Definition is_UnionFile {H : Type} (f : option (File H)) : bool :=
  match f with Some (UnionFile _ _) => true | _ => false end.

(** A collaborator's [(File, error)] seen as the union's [(File, error)]. *)
Definition as_File {H : Type} (r : option H * option error)
  : option (File H) * option error :=
  (option_map FsFile (fst r), snd r).

(** ** Calls issued to the collaborators *)

Inductive side : Type := Base | Layer.

Inductive method : Type :=
| MCreate (name : string)
| MMkdir (name : string) (perm : FileMode)
| MMkdirAll (name : string) (perm : FileMode)
| MOpen (name : string)
| MOpenFile (name : string) (flag : Z) (perm : FileMode)
| MRemove (name : string)
| MRemoveAll (name : string)
| MRename (oldname newname : string)
| MStat (name : string)
| MChmod (name : string) (mode : FileMode)
| MChtimes (name : string) (atime mtime : Time).

Inductive call : Type :=
| OnFs (s : side) (m : method)
| CopyToLayer (name : string).

(** The bits [OpenFile] tests: [O_WRONLY|O_RDWR|O_APPEND|O_CREATE|O_TRUNC]. *)
Definition write_mask : Z :=
  Z.lor O_WRONLY (Z.lor O_RDWR (Z.lor O_APPEND (Z.lor O_CREATE O_TRUNC))).

(** [flag & (O_WRONLY|O_RDWR|O_APPEND|O_CREATE|O_TRUNC) != 0] *)
Definition wants_write (flag : Z) : bool :=
  negb (Z.eqb (Z.land flag write_mask) 0).

(** The spec's wording of the same test: the flags include write, read-write,
    append, create or truncate. *)
Definition mutating_intent (flag : Z) : Prop :=
  Z.land flag O_WRONLY <> 0 \/ Z.land flag O_RDWR <> 0 \/
  Z.land flag O_APPEND <> 0 \/ Z.land flag O_CREATE <> 0 \/
  Z.land flag O_TRUNC <> 0.

(** The methods of [Fs] that only read: [Stat], [Open], and [OpenFile] with
    none of the writing bits. *)
Definition reads_only (m : method) : bool :=
  match m with
  | MStat _ | MOpen _ => true
  | MOpenFile _ flag _ => negb (wants_write flag)
  | _ => false
  end.

(** A call that cannot write to the base: any call on the layer, a reading
    method on the base, or the copy helper (whose source side is the base). *)
Definition spares_base (c : call) : bool :=
  match c with
  | OnFs Layer _ => true
  | OnFs Base m => reads_only m
  | CopyToLayer _ => true
  end.

Definition on_base (c : call) : bool :=
  match c with OnFs Base _ => true | _ => false end.

Definition is_copy (c : call) : bool :=
  match c with CopyToLayer _ => true | _ => false end.

(** ** The union filesystem *)

Section CopyOnWrite.

Variables H SB SL : Type.

(** [type CopyOnWriteUnionFs struct { base Fs; layer Fs }]: the two
    collaborators, each with the state it is currently in. *)
Record CopyOnWriteUnionFs : Type := mkUnion {
  base : SB;
  layer : SL
}.

Variable base_fs : Fs H SB.
Variable layer_fs : Fs H SL.

(** Modelled from the spec: the package-level helper
    [copyToLayer(base, layer, name)] is not part of union_cow.go.  The spec
    describes it as the byte-copy collaborator [materialize(base, overlay,
    path) -> error]; it is taken here as an arbitrary function of the two
    collaborators' states. *)
Variable copy_file : string -> SB -> SL -> option error * (SB * SL).

(** What a method call leaves behind: Go's result, the union with both
    collaborators in their new states, and the calls issued, in order. *)
Record Outcome (A : Type) : Type := mkOutcome {
  result : A;
  final : CopyOnWriteUnionFs;
  issued : list call
}.

Arguments result {A}.
Arguments final {A}.
Arguments issued {A}.

Definition M (A : Type) : Type := CopyOnWriteUnionFs -> Outcome A.

Definition ret {A : Type} (a : A) : M A :=
  fun u => mkOutcome A a u [].

Definition bind {A B : Type} (m : M A) (k : A -> M B) : M B :=
  fun u =>
    let o := m u in
    let o' := k (result o) (final o) in
    mkOutcome B (result o') (final o') (issued o ++ issued o').

Notation "x <- m ;; k" := (bind m (fun x => k))
  (at level 61, m at next level, right associativity).

(** [u.layer.<method>(...)] *)
Definition call_layer {A : Type} (m : method) (f : SL -> A * SL) : M A :=
  fun u =>
    mkOutcome A (fst (f (layer u)))
      (mkUnion (base u) (snd (f (layer u)))) [OnFs Layer m].

(** [u.base.<method>(...)] *)
Definition call_base {A : Type} (m : method) (f : SB -> A * SB) : M A :=
  fun u =>
    mkOutcome A (fst (f (base u)))
      (mkUnion (snd (f (base u))) (layer u)) [OnFs Base m].

(** An [Fs] method on either collaborator. *)
Definition fs_call {A : Type} (s : side) (m : method)
  (fb : SB -> A * SB) (fl : SL -> A * SL) : M A :=
  match s with
  | Base => call_base m fb
  | Layer => call_layer m fl
  end.

Definition stat_on (s : side) (name : string)
  : M (option FileInfo * option error) :=
  fs_call s (MStat name) (fs_Stat base_fs name) (fs_Stat layer_fs name).

(** Modelled from the spec: [IsDir(fs, name)] is not part of union_cow.go.
    The spec speaks of a lookup on the given filesystem that either errors or
    tells whether the entry is a directory: [Stat] on that filesystem, the
    error passed on with [false], otherwise the entry's [IsDir()].  (A nil
    [FileInfo] together with a nil error is outside the [Fs] contract; it is
    read as "not a directory".) *)
Definition IsDir (s : side) (name : string) : M (bool * option error) :=
  r <- stat_on s name ;;
  match snd r with
  | Some err => ret (false, Some err)
  | None =>
      ret (match fst r with Some fi => fi_IsDir fi | None => false end, None)
  end.

(** <<
func (u *CopyOnWriteUnionFs) isBaseFile(name string) (bool, error) {
	if _, err := u.layer.Stat(name); err == nil {
		return false, nil
	}
	_, err := u.base.Stat(name)
	return true, err
}
>> *)
Definition isBaseFile (name : string) : M (bool * option error) :=
  r <- stat_on Layer name ;;
  if is_nil (snd r) then ret (false, None)
  else
    r' <- stat_on Base name ;;
    ret (true, snd r').

(** [func (u *CopyOnWriteUnionFs) copyToLayer(name string) error] *)
Definition copyToLayer (name : string) : M (option error) :=
  fun u =>
    let c := copy_file name (base u) (layer u) in
    mkOutcome (option error) (fst c)
      (mkUnion (fst (snd c)) (snd (snd c))) [CopyToLayer name].

Definition Chtimes (name : string) (atime mtime : Time) : M (option error) :=
  c <- isBaseFile name ;;
  match snd c with
  | Some err => ret (Some err)
  | None =>
      if fst c then
        e <- copyToLayer name ;;
        match e with
        | Some err => ret (Some err)
        | None =>
            call_layer (MChtimes name atime mtime)
              (fs_Chtimes layer_fs name atime mtime)
        end
      else
        call_layer (MChtimes name atime mtime)
          (fs_Chtimes layer_fs name atime mtime)
  end.

Definition Chmod (name : string) (mode : FileMode) : M (option error) :=
  c <- isBaseFile name ;;
  match snd c with
  | Some err => ret (Some err)
  | None =>
      if fst c then
        e <- copyToLayer name ;;
        match e with
        | Some err => ret (Some err)
        | None => call_layer (MChmod name mode) (fs_Chmod layer_fs name mode)
        end
      else call_layer (MChmod name mode) (fs_Chmod layer_fs name mode)
  end.

(** The [switch err] of [Stat]: [nil], [syscall.ENOENT], default. *)
Definition Stat (name : string) : M (option FileInfo * option error) :=
  r <- stat_on Layer name ;;
  match snd r with
  | None => ret (fst r, None)
  | Some err =>
      if error_eqb err ENOENT then stat_on Base name
      else ret (None, Some err)
  end.

(** Renaming files present only in the base layer is not permitted. *)
Definition Rename (oldname newname : string) : M (option error) :=
  c <- isBaseFile oldname ;;
  match snd c with
  | Some err => ret (Some err)
  | None =>
      if fst c then ret (Some EPERM)
      else
        call_layer (MRename oldname newname)
          (fs_Rename layer_fs oldname newname)
  end.

(** Removing files present only in the base layer is not permitted.  If a
    file is present in the base layer and the overlay, only the overlay will
    be removed. *)
Definition Remove (name : string) : M (option error) :=
  e <- call_layer (MRemove name) (fs_Remove layer_fs name) ;;
  match e with
  | Some err =>
      if error_eqb err ENOENT then
        r <- stat_on Base name ;;
        if is_nil (snd r) then ret (Some EPERM) else ret (Some ENOENT)
      else ret e
  | None => ret e
  end.

Definition RemoveAll (name : string) : M (option error) :=
  e <- call_layer (MRemoveAll name) (fs_RemoveAll layer_fs name) ;;
  match e with
  | Some err =>
      if error_eqb err ENOENT then
        r <- stat_on Base name ;;
        if is_nil (snd r) then ret (Some EPERM) else ret (Some ENOENT)
      else ret e
  | None => ret e
  end.

Definition layer_OpenFile (name : string) (flag : Z) (perm : FileMode)
  : M (option (File H) * option error) :=
  r <- call_layer (MOpenFile name flag perm)
         (fs_OpenFile layer_fs name flag perm) ;;
  ret (as_File r).

Definition OpenFile (name : string) (flag : Z) (perm : FileMode)
  : M (option (File H) * option error) :=
  c <- isBaseFile name ;;
  match snd c with
  | Some err => ret (None, Some err)
  | None =>
      if wants_write flag then
        if fst c then
          e <- copyToLayer name ;;
          match e with
          | Some err => ret (None, Some err)
          | None => layer_OpenFile name flag perm
          end
        else layer_OpenFile name flag perm
      else if fst c then
        r <- call_base (MOpenFile name flag perm)
               (fs_OpenFile base_fs name flag perm) ;;
        ret (as_File r)
      else layer_OpenFile name flag perm
  end.

Definition open_on (s : side) (name : string)
  : M (option H * option error) :=
  fs_call s (MOpen name) (fs_Open base_fs name) (fs_Open layer_fs name).

Definition Open (name : string) : M (option (File H) * option error) :=
  c <- isBaseFile name ;;
  match snd c with
  | Some err => ret (None, Some err)
  | None =>
      if fst c then
        r <- open_on Base name ;;
        ret (as_File r)
      else
        d <- IsDir Layer name ;;
        match snd d with
        | Some err => ret (None, Some err)
        | None =>
            if negb (fst d) then
              r <- open_on Layer name ;;
              ret (as_File r)
            else
              bf <- open_on Base name ;;
              lf <- open_on Layer name ;;
              if negb (is_nil (snd lf)) && no_handle (fst bf)
              then ret (None, snd lf)
              else ret (Some (UnionFile (fst bf) (fst lf)), None)
        end
  end.

Definition layer_MkdirAll (name : string) (perm : FileMode)
  : M (option error) :=
  call_layer (MMkdirAll name perm) (fs_MkdirAll layer_fs name perm).

Definition Mkdir (name : string) (perm : FileMode) : M (option error) :=
  d <- IsDir Base name ;;
  match snd d with
  | Some _ => layer_MkdirAll name perm
  | None => if fst d then ret (Some EEXIST) else layer_MkdirAll name perm
  end.

Definition Name : string := "CopyOnWriteUnionFs".

Definition MkdirAll (name : string) (perm : FileMode) : M (option error) :=
  d <- IsDir Base name ;;
  match snd d with
  | Some _ => layer_MkdirAll name perm
  | None => if fst d then ret (Some EEXIST) else layer_MkdirAll name perm
  end.

Definition layer_Create (name : string)
  : M (option (File H) * option error) :=
  r <- call_layer (MCreate name) (fs_Create layer_fs name) ;;
  ret (as_File r).

Definition Create (name : string) : M (option (File H) * option error) :=
  c <- isBaseFile name ;;
  if is_nil (snd c) && fst c then
    e <- copyToLayer name ;;
    match e with
    | Some err => ret (None, Some err)
    | None => layer_Create name
    end
  else layer_Create name.

(** *** Path classification

    The two classes of the spec, read off the answer of [isBaseFile]. *)
Definition BaseOnly (name : string) (u : CopyOnWriteUnionFs) : Prop :=
  result (isBaseFile name u) = (true, None).

Definition OverlayPresent (name : string) (u : CopyOnWriteUnionFs) : Prop :=
  result (isBaseFile name u) = (false, None).

(** The spec's wording of [makeDirectory] and [makeDirectoryRecursive]:
    look the path up in the base; if the lookup errors, create recursively
    on the overlay; if it succeeds and the path is a directory, answer
    AlreadyExists; if the path exists but is no directory, fall through to
    the overlay's creation. *)
Definition spec_makeDirectory (name : string) (perm : FileMode)
  : M (option error) :=
  r <- stat_on Base name ;;
  match snd r with
  | Some _ => layer_MkdirAll name perm
  | None =>
      match fst r with
      | Some fi =>
          if fi_IsDir fi then ret (Some EEXIST) else layer_MkdirAll name perm
      | None => layer_MkdirAll name perm
      end
  end.

(** A base whose reading methods leave it as it is, and a copy helper that
    only reads its source. *)
Definition reads_purely : Prop :=
  (forall name s, snd (fs_Stat base_fs name s) = s) /\
  (forall name s, snd (fs_Open base_fs name s) = s) /\
  (forall name flag perm s,
      wants_write flag = false ->
      snd (fs_OpenFile base_fs name flag perm s) = s) /\
  (forall name b l, fst (snd (copy_file name b l)) = b).

(** A computation that issues no writing call on the base, and one that
    leaves the base in the state it found it. *)
Definition spares {A : Type} (m : M A) : Prop :=
  forall u, Forall (fun c => spares_base c = true) (issued (m u)).

Definition keeps_base {A : Type} (m : M A) : Prop :=
  forall u, base (final (m u)) = base u.

End CopyOnWrite.

Arguments mkUnion {SB SL}.
Arguments base {SB SL}.
Arguments layer {SB SL}.
Arguments mkOutcome {SB SL A}.
Arguments result {SB SL A}.
Arguments final {SB SL A}.
Arguments issued {SB SL A}.
Arguments isBaseFile {H SB SL}.
Arguments IsDir {H SB SL}.
Arguments copyToLayer {SB SL}.
Arguments Chtimes {H SB SL}.
Arguments Chmod {H SB SL}.
Arguments Stat {H SB SL}.
Arguments Rename {H SB SL}.
Arguments Remove {H SB SL}.
Arguments RemoveAll {H SB SL}.
Arguments OpenFile {H SB SL}.
Arguments Open {H SB SL}.
Arguments Mkdir {H SB SL}.
Arguments MkdirAll {H SB SL}.
Arguments Create {H SB SL}.
Arguments BaseOnly {H SB SL}.
Arguments OverlayPresent {H SB SL}.
Arguments spec_makeDirectory {H SB SL}.
Arguments reads_purely {H SB SL}.
Arguments spares {SB SL A}.
Arguments keeps_base {SB SL A}.
Arguments ret {SB SL A}.
Arguments bind {SB SL A B}.
Arguments call_layer {SB SL A}.
Arguments call_base {SB SL A}.

(** ** The public operations, as one type *)

Inductive Operation : Type :=
| OpStat (name : string)
| OpOpen (name : string)
| OpOpenFile (name : string) (flag : Z) (perm : FileMode)
| OpCreate (name : string)
| OpRemove (name : string)
| OpRemoveAll (name : string)
| OpRename (oldname newname : string)
| OpChtimes (name : string) (atime mtime : Time)
| OpChmod (name : string) (mode : FileMode)
| OpMkdir (name : string) (perm : FileMode)
| OpMkdirAll (name : string) (perm : FileMode).

(** The state and the calls an operation leaves, whatever it returns. *)
Definition forget {SB SL A : Type} (o : Outcome SB SL A)
  : CopyOnWriteUnionFs SB SL * list call :=
  (final o, issued o).

Definition perform {H SB SL : Type} (base_fs : Fs H SB) (layer_fs : Fs H SL)
  (copy_file : string -> SB -> SL -> option error * (SB * SL))
  (op : Operation) (u : CopyOnWriteUnionFs SB SL)
  : CopyOnWriteUnionFs SB SL * list call :=
  match op with
  | OpStat name => forget (Stat base_fs layer_fs name u)
  | OpOpen name => forget (Open base_fs layer_fs name u)
  | OpOpenFile name flag perm =>
      forget (OpenFile base_fs layer_fs copy_file name flag perm u)
  | OpCreate name => forget (Create base_fs layer_fs copy_file name u)
  | OpRemove name => forget (Remove base_fs layer_fs name u)
  | OpRemoveAll name => forget (RemoveAll base_fs layer_fs name u)
  | OpRename o n => forget (Rename base_fs layer_fs o n u)
  | OpChtimes name a m =>
      forget (Chtimes base_fs layer_fs copy_file name a m u)
  | OpChmod name mode => forget (Chmod base_fs layer_fs copy_file name mode u)
  | OpMkdir name perm => forget (Mkdir base_fs layer_fs name perm u)
  | OpMkdirAll name perm => forget (MkdirAll base_fs layer_fs name perm u)
  end.

(** ** A small in-memory [Fs]

    A collaborator to run the union on: a table from paths to entries, with
    the path itself as the handle of an opened file.  It serves the closed
    instances below; the general statements hold for every [Fs]. *)

Module Mem.

Record Entry : Type := mkEntry {
  e_dir : bool;
  e_data : string;
  e_mode : FileMode;
  e_mtime : Time
}.

Definition State : Type := list (string * Entry).

Fixpoint find (name : string) (s : State) : option Entry :=
  match s with
  | [] => None
  | (n, e) :: rest => if String.eqb n name then Some e else find name rest
  end.

Fixpoint drop (name : string) (s : State) : State :=
  match s with
  | [] => []
  | (n, e) :: rest =>
      if String.eqb n name then drop name rest else (n, e) :: drop name rest
  end.

Definition put (name : string) (e : Entry) (s : State) : State :=
  (name, e) :: drop name s.

Definition info (name : string) (e : Entry) : FileInfo :=
  mkFileInfo name (Z.of_nat (String.length (e_data e))) (e_mode e)
    (e_mtime e) (e_dir e).

Definition update (name : string) (f : Entry -> Entry) (s : State)
  : option error * State :=
  match find name s with
  | Some e => (None, put name (f e) s)
  | None => (Some ENOENT, s)
  end.

Definition open (name : string) (s : State)
  : (option string * option error) * State :=
  match find name s with
  | Some _ => ((Some name, None), s)
  | None => ((None, Some ENOENT), s)
  end.

Definition mkdir (name : string) (perm : FileMode) (s : State)
  : option error * State :=
  match find name s with
  | Some _ => (Some EEXIST, s)
  | None => (None, put name (mkEntry true "" perm 0) s)
  end.

Definition remove (name : string) (s : State) : option error * State :=
  match find name s with
  | Some _ => (None, drop name s)
  | None => (Some ENOENT, s)
  end.

Definition fs : Fs string State :=
  mkFs string State
    (fun name s => ((Some name, None), put name (mkEntry false "" 420 0) s))
    mkdir
    mkdir
    open
    (fun name flag perm s =>
       match find name s with
       | Some e =>
           if Z.eqb (Z.land flag O_TRUNC) 0 then ((Some name, None), s)
           else ((Some name, None),
                 put name (mkEntry (e_dir e) "" (e_mode e) (e_mtime e)) s)
       | None =>
           if Z.eqb (Z.land flag O_CREATE) 0 then ((None, Some ENOENT), s)
           else ((Some name, None), put name (mkEntry false "" perm 0) s)
       end)
    remove
    remove
    (fun oldname newname s =>
       match find oldname s with
       | Some e => (None, put newname e (drop oldname s))
       | None => (Some ENOENT, s)
       end)
    (fun name s =>
       match find name s with
       | Some e => ((Some (info name e), None), s)
       | None => ((None, Some ENOENT), s)
       end)
    (fun name mode =>
       update name (fun e => mkEntry (e_dir e) (e_data e) mode (e_mtime e)))
    (fun name atime mtime =>
       update name (fun e => mkEntry (e_dir e) (e_data e) (e_mode e) mtime)).

(** The same filesystem with a [Stat] that fails with [err] on every path. *)
Definition stat_failing (err : error) : Fs string State :=
  mkFs string State
    (fs_Create fs) (fs_Mkdir fs) (fs_MkdirAll fs) (fs_Open fs)
    (fs_OpenFile fs) (fs_Remove fs) (fs_RemoveAll fs) (fs_Rename fs)
    (fun name s => ((None, Some err), s))
    (fs_Chmod fs) (fs_Chtimes fs).

(** The byte-copy helper on two tables: the base entry is written to the
    layer under the same path, the base is only read. *)
Definition copy (name : string) (b l : State)
  : option error * (State * State) :=
  match find name b with
  | Some e => (None, (b, put name e l))
  | None => (Some ENOENT, (b, l))
  end.

(** A copy helper that always fails and writes nothing. *)
Definition copy_failing (err : error) (name : string) (b l : State)
  : option error * (State * State) :=
  (Some err, (b, l)).

Definition hello : Entry := mkEntry false "hello" 420 7.
Definition a_dir : Entry := mkEntry true "" 493 3.

End Mem.

(** ** Closed instances on the in-memory filesystem *)

Module Run.

(** A base holding a file and a directory, under an empty overlay. *)
Definition only_base : CopyOnWriteUnionFs Mem.State Mem.State :=
  mkUnion [("/a.txt", Mem.hello); ("/d", Mem.a_dir)] [].

(** The same base under an overlay that has its own [/a.txt] and [/d]. *)
Definition shadowed : CopyOnWriteUnionFs Mem.State Mem.State :=
  mkUnion [("/a.txt", Mem.hello); ("/d", Mem.a_dir)]
          [("/a.txt", Mem.mkEntry false "world" 384 9); ("/d", Mem.a_dir)].

End Run.

(** ** Vocabulary for the calls of an operation *)

(** A call that reads: a reading method on either layer.  The copy helper
    writes the overlay and is no reading call. *)
Definition reading_call (c : call) : bool :=
  match c with
  | OnFs _ m => reads_only m
  | CopyToLayer _ => false
  end.

(** The operations that ask for no change: [Stat], [Open], and [OpenFile]
    without a writing flag. *)
Definition read_operation (op : Operation) : bool :=
  match op with
  | OpStat _ | OpOpen _ => true
  | OpOpenFile _ flag _ => negb (wants_write flag)
  | _ => false
  end.

(** The path an operation may have to copy before it writes: the operations
    whose source calls [copyToLayer], with [OpenFile] counted only under a
    writing flag. *)
Definition write_target (op : Operation) : option string :=
  match op with
  | OpChtimes name _ _ | OpChmod name _ | OpCreate name => Some name
  | OpOpenFile name flag _ => if wants_write flag then Some name else None
  | _ => None
  end.

(** The paths a call names, and the paths an operation is given. *)
Definition method_paths (m : method) : list string :=
  match m with
  | MCreate name | MMkdir name _ | MMkdirAll name _ | MOpen name
  | MOpenFile name _ _ | MRemove name | MRemoveAll name | MStat name
  | MChmod name _ | MChtimes name _ _ => [name]
  | MRename oldname newname => [oldname; newname]
  end.

Definition call_paths (c : call) : list string :=
  match c with
  | OnFs _ m => method_paths m
  | CopyToLayer name => [name]
  end.

Definition operation_paths (op : Operation) : list string :=
  match op with
  | OpStat name | OpOpen name | OpOpenFile name _ _ | OpCreate name
  | OpRemove name | OpRemoveAll name | OpChtimes name _ _ | OpChmod name _
  | OpMkdir name _ | OpMkdirAll name _ => [name]
  | OpRename oldname newname => [oldname; newname]
  end.

(** A filesystem whose reading methods leave its state as it is. *)
Definition fs_reads_purely {H S : Type} (fs : Fs H S) : Prop :=
  (forall name s, snd (fs_Stat fs name s) = s) /\
  (forall name s, snd (fs_Open fs name s) = s) /\
  (forall name flag perm s,
      wants_write flag = false -> snd (fs_OpenFile fs name flag perm s) = s).

(** A computation all of whose calls satisfy [P], and one that leaves both
    layers in the state it found them. *)
Definition issues_only {SB SL A : Type} (P : call -> bool) (m : M SB SL A)
  : Prop :=
  forall u, Forall (fun c => P c = true) (issued (m u)).

Definition leaves_union {SB SL A : Type} (m : M SB SL A) : Prop :=
  forall u, final (m u) = u.

(** An overlay for the closed instances whose [Stat] answers once and fails
    with [EIO] from then on; every other method is the in-memory one. *)
Module Flaky.

Definition State : Type := (bool * Mem.State)%type.

Definition lift {A : Type} (f : Mem.State -> A * Mem.State) (s : State)
  : A * State :=
  (fst (f (snd s)), (fst s, snd (f (snd s)))).

Definition fs : Fs string State :=
  mkFs string State
    (fun name => lift (fs_Create Mem.fs name))
    (fun name perm => lift (fs_Mkdir Mem.fs name perm))
    (fun name perm => lift (fs_MkdirAll Mem.fs name perm))
    (fun name => lift (fs_Open Mem.fs name))
    (fun name flag perm => lift (fs_OpenFile Mem.fs name flag perm))
    (fun name => lift (fs_Remove Mem.fs name))
    (fun name => lift (fs_RemoveAll Mem.fs name))
    (fun oldname newname => lift (fs_Rename Mem.fs oldname newname))
    (fun name s =>
       if fst s then ((None, Some EIO), s)
       else (fst (fs_Stat Mem.fs name (snd s)), (true, snd s)))
    (fun name mode => lift (fs_Chmod Mem.fs name mode))
    (fun name atime mtime => lift (fs_Chtimes Mem.fs name atime mtime)).

End Flaky.

(** ** Properties *)

Lemma error_eqb_eq (a b : error) : error_eqb a b = true <-> a = b.
Proof.
  destruct a, b; cbn; split; intro E; try discriminate; try congruence.
  - apply Z.eqb_eq in E. congruence.
  - injection E as ->. apply Z.eqb_refl.
  - apply andb_true_iff in E as [E Ec]. apply andb_true_iff in E as [Eo Ep].
    apply String.eqb_eq in Eo, Ep. apply Z.eqb_eq in Ec. congruence.
  - injection E as -> -> ->.
    rewrite !String.eqb_refl, Z.eqb_refl. reflexivity.
  - apply String.eqb_eq in E. congruence.
  - injection E as ->. apply String.eqb_refl.
Qed.

Lemma error_eqb_neq (a b : error) : error_eqb a b = false <-> a <> b.
Proof.
  split.
  - intros E Eq. apply error_eqb_eq in Eq. congruence.
  - intros N. destruct (error_eqb a b) eqn:E; [|reflexivity].
    apply error_eqb_eq in E. contradiction.
Qed.

(** The mask test of [OpenFile] holds exactly when the flags carry at least
    one of the five writing bits. *)
Lemma wants_write_iff (flag : Z) :
  wants_write flag = true <-> mutating_intent flag.
Proof.
  unfold wants_write, write_mask, mutating_intent.
  rewrite negb_true_iff, Z.eqb_neq, !Z.land_lor_distr_r.
  split.
  - intros N.
    destruct (Z.eq_dec (Z.land flag O_WRONLY) 0) as [E1|]; [|tauto].
    destruct (Z.eq_dec (Z.land flag O_RDWR) 0) as [E2|]; [|tauto].
    destruct (Z.eq_dec (Z.land flag O_APPEND) 0) as [E3|]; [|tauto].
    destruct (Z.eq_dec (Z.land flag O_CREATE) 0) as [E4|]; [|tauto].
    destruct (Z.eq_dec (Z.land flag O_TRUNC) 0) as [E5|]; [|tauto].
    exfalso. apply N. rewrite E1, E2, E3, E4, E5. reflexivity.
  - intros D E. repeat (apply Z.lor_eq_0_iff in E as [? E]). tauto.
Qed.

Lemma wants_write_RDONLY : wants_write O_RDONLY = false.
Proof. reflexivity. Qed.

(** Unfolds a method of the union down to the collaborators' answers. *)
Ltac unfold_union :=
  unfold perform, forget, Chtimes, Chmod, Stat, Rename, Remove, RemoveAll,
    OpenFile, Open, Mkdir, MkdirAll, Create, layer_OpenFile, layer_Create,
    layer_MkdirAll, IsDir, isBaseFile, copyToLayer, open_on, stat_on,
    fs_call, call_layer, call_base, bind, ret;
  cbn.

(** Splits on the next answer the control flow depends on. *)
Ltac split_flow :=
  match goal with
  | |- context [match ?x with _ => _ end] =>
      let E := fresh "E" in destruct x eqn:E; cbn in *
  end.

Ltac settle :=
  repeat split_flow;
  repeat match goal with
    | |- _ /\ _ => split
    | |- _ <-> _ => split; intros
    end;
  try reflexivity; try congruence; try discriminate; auto.

(** Reduces the projections of outcomes and of Go's result tuples, leaving
    the methods of the union and of the collaborators folded. *)
Ltac simp :=
  cbn [result final issued fst snd base layer is_nil no_handle negb andb orb
       app as_File option_map is_UnionFile existsb on_base ret] in *.

(** Unfolds the single calls a method is made of. *)
Ltac unfold_calls :=
  unfold open_on, stat_on, layer_OpenFile, layer_Create, layer_MkdirAll,
    copyToLayer, fs_call, call_layer, call_base, bind;
  simp.

Ltac answer_in T :=
  match T with
  | context [fs_Stat ?f ?n ?s] =>
      is_var s; destruct (fs_Stat f n s) as [[[?|] [?|]] ?]
  | context [fs_Open ?f ?n ?s] =>
      is_var s; destruct (fs_Open f n s) as [[[?|] [?|]] ?]
  | context [fs_OpenFile ?f ?n ?fl ?p ?s] =>
      is_var s; destruct (fs_OpenFile f n fl p s) as [[[?|] [?|]] ?]
  | context [fs_Create ?f ?n ?s] =>
      is_var s; destruct (fs_Create f n s) as [[[?|] [?|]] ?]
  | context [fs_Remove ?f ?n ?s] =>
      is_var s; destruct (fs_Remove f n s) as [[?|] ?]
  | context [fs_RemoveAll ?f ?n ?s] =>
      is_var s; destruct (fs_RemoveAll f n s) as [[?|] ?]
  | context [fs_Rename ?f ?n ?n' ?s] =>
      is_var s; destruct (fs_Rename f n n' s) as [[?|] ?]
  | context [fs_Chmod ?f ?n ?m ?s] =>
      is_var s; destruct (fs_Chmod f n m s) as [[?|] ?]
  | context [fs_Chtimes ?f ?n ?a ?m ?s] =>
      is_var s; destruct (fs_Chtimes f n a m s) as [[?|] ?]
  | context [fs_MkdirAll ?f ?n ?m ?s] =>
      is_var s; destruct (fs_MkdirAll f n m s) as [[?|] ?]
  | context [?copy ?n ?b ?l] =>
      is_var copy; is_var b; is_var l;
      match type of (copy n b l) with
      | (option error * (_ * _))%type =>
          destruct (copy n b l) as [[?|] [? ?]]
      end
  | context [fi_IsDir ?fi] => is_var fi; destruct (fi_IsDir fi)
  | context [wants_write ?fl] => is_var fl; destruct (wants_write fl)
  end.

(** Names the answer of the next collaborator call made on a known state. *)
Ltac answer :=
  match goal with
  | |- ?G => answer_in G
  | H : ?T |- _ => answer_in T
  end;
  simp.

Ltac parts :=
  repeat match goal with
    | |- _ /\ _ => split
    | |- _ <-> _ => split
    | |- forall _, _ => intro
    end.

Ltac finish :=
  try discriminate; try reflexivity; try congruence;
  try solve [intuition (try congruence; try discriminate)].

Section Properties.

Context {H SB SL : Type}.
Variable base_fs : Fs H SB.
Variable layer_fs : Fs H SL.
Variable copy_file : string -> SB -> SL -> option error * (SB * SL).

Implicit Types (u : CopyOnWriteUnionFs SB SL) (name : string).

(** C2 (as the code has it): [isBaseFile] asks the overlay first.  When the
    overlay's [Stat] succeeds the answer is [(false, nil)] and the base is
    not asked.  When it fails with any error at all, not-found or another
    one, that error is dropped, the base's [Stat] is asked, and the answer is
    [(true, baseError)]. *)
Theorem isBaseFile_any_overlay_error name u :
  let l := fs_Stat layer_fs name (layer u) in
  let b := fs_Stat base_fs name (base u) in
  let o := isBaseFile base_fs layer_fs name u in
  match snd (fst l) with
  | None =>
      result o = (false, None) /\
      issued o = [OnFs Layer (MStat name)] /\
      final o = mkUnion (base u) (snd l)
  | Some _ =>
      result o = (true, snd (fst b)) /\
      issued o = [OnFs Layer (MStat name); OnFs Base (MStat name)] /\
      final o = mkUnion (snd b) (snd l)
  end.
Proof. unfold_union. settle. Qed.

(** C4: [Stat] asks the overlay first and returns its metadata on success.
    It falls back to the base, whose answer it returns verbatim, if and only
    if the overlay's error is [syscall.ENOENT] itself; any other overlay
    error is returned at once and the base is not asked. *)
Theorem Stat_overlay_first name u :
  let l := fs_Stat layer_fs name (layer u) in
  let b := fs_Stat base_fs name (base u) in
  let o := Stat base_fs layer_fs name u in
  (snd (fst l) = None ->
     result o = fst l /\
     issued o = [OnFs Layer (MStat name)] /\
     final o = mkUnion (base u) (snd l)) /\
  (snd (fst l) = Some ENOENT ->
     result o = fst b /\
     issued o = [OnFs Layer (MStat name); OnFs Base (MStat name)] /\
     final o = mkUnion (snd b) (snd l)) /\
  (forall err, snd (fst l) = Some err -> err <> ENOENT ->
     result o = (None, Some err) /\
     issued o = [OnFs Layer (MStat name)] /\
     final o = mkUnion (base u) (snd l)) /\
  (existsb on_base (issued o) = true <-> snd (fst l) = Some ENOENT).
Proof.
  unfold_union.
  destruct (fs_Stat layer_fs name (layer u)) as [[fi [err|]] l']; cbn.
  - destruct (error_eqb err ENOENT) eqn:E; cbn.
    + apply error_eqb_eq in E. subst err.
      repeat split; intros; try discriminate; try congruence; auto.
    + apply error_eqb_neq in E.
      repeat split; intros; try discriminate; try congruence; auto.
  - repeat split; intros; try discriminate; try congruence; auto.
Qed.

(** C5: [Remove] and [RemoveAll] try the overlay first.  When the overlay
    answers [syscall.ENOENT] the base is looked up: [EPERM] if it has the
    entry, [ENOENT] if not.  Every other overlay answer, success included,
    is returned verbatim and the base is not touched, so an entry present in
    both layers loses its overlay copy only. *)
Theorem removal_overlay_first name u :
  let b := fs_Stat base_fs name (base u) in
  let guarded (rm : option error * SL) (m : method)
              (o : Outcome SB SL (option error)) : Prop :=
    (fst rm = Some ENOENT ->
       (snd (fst b) = None -> result o = Some EPERM) /\
       (snd (fst b) <> None -> result o = Some ENOENT) /\
       issued o = [OnFs Layer m; OnFs Base (MStat name)] /\
       final o = mkUnion (snd b) (snd rm)) /\
    (fst rm <> Some ENOENT ->
       result o = fst rm /\
       issued o = [OnFs Layer m] /\
       final o = mkUnion (base u) (snd rm)) in
  guarded (fs_Remove layer_fs name (layer u)) (MRemove name)
    (Remove base_fs layer_fs name u) /\
  guarded (fs_RemoveAll layer_fs name (layer u)) (MRemoveAll name)
    (RemoveAll base_fs layer_fs name u).
Proof.
  unfold_union.
  split.
  - destruct (fs_Remove layer_fs name (layer u)) as [[err|] l']; cbn.
    + destruct (error_eqb err ENOENT) eqn:E; cbn.
      * apply error_eqb_eq in E. subst err.
        destruct (fs_Stat base_fs name (base u)) as [[fi [e|]] b']; cbn;
          repeat split; intros; try discriminate; try congruence; auto.
      * apply error_eqb_neq in E.
        repeat split; intros; try discriminate; try congruence; auto.
    + repeat split; intros; try discriminate; try congruence; auto.
  - destruct (fs_RemoveAll layer_fs name (layer u)) as [[err|] l']; cbn.
    + destruct (error_eqb err ENOENT) eqn:E; cbn.
      * apply error_eqb_eq in E. subst err.
        destruct (fs_Stat base_fs name (base u)) as [[fi [e|]] b']; cbn;
          repeat split; intros; try discriminate; try congruence; auto.
      * apply error_eqb_neq in E.
        repeat split; intros; try discriminate; try congruence; auto.
    + repeat split; intros; try discriminate; try congruence; auto.
Qed.

(** C6: [Rename] of a path classified base-only answers [EPERM]; beyond the
    two [Stat] calls of the classification nothing is called, so the overlay
    is neither asked to rename nor given a copy.  For a path present in the
    overlay the overlay's [Rename] is called and its answer returned. *)
Theorem Rename_base_only_forbidden oldname newname u :
  let c := isBaseFile base_fs layer_fs oldname u in
  let o := Rename base_fs layer_fs oldname newname u in
  (BaseOnly base_fs layer_fs oldname u ->
     result o = Some EPERM /\
     issued o = [OnFs Layer (MStat oldname); OnFs Base (MStat oldname)] /\
     issued o = issued c /\
     final o = final c) /\
  (OverlayPresent base_fs layer_fs oldname u ->
     let r := fs_Rename layer_fs oldname newname (layer (final c)) in
     result o = fst r /\
     issued o = issued c ++ [OnFs Layer (MRename oldname newname)] /\
     final o = mkUnion (base (final c)) (snd r)).
Proof.
  unfold BaseOnly, OverlayPresent. unfold_union.
  destruct (fs_Stat layer_fs oldname (layer u)) as [[fi [err|]] l']; cbn.
  - destruct (fs_Stat base_fs oldname (base u)) as [[fi' [e|]] b']; cbn;
      repeat split; intros; try discriminate; try congruence; auto.
  - repeat split; intros; try discriminate; try congruence; auto.
Qed.

(** C3: [OpenFile] with a writing flag (write, read-write, append, create or
    truncate) on a base-only path first copies the file to the overlay; a
    failed copy ends the call with that error and nothing is opened, a
    successful one is followed by the overlay's [OpenFile] with the caller's
    flags.  With a writing flag on a path present in the overlay the
    overlay's [OpenFile] is called directly.  Without any writing flag the
    base's [OpenFile] serves a base-only path and the overlay's any other. *)
Theorem OpenFile_routing name flag perm u :
  let c := isBaseFile base_fs layer_fs name u in
  let m := copyToLayer copy_file name (final c) in
  let o := OpenFile base_fs layer_fs copy_file name flag perm u in
  let opened (before : list call) (v : CopyOnWriteUnionFs SB SL) : Prop :=
    let r := fs_OpenFile layer_fs name flag perm (layer v) in
    result o = as_File (fst r) /\
    issued o = before ++ [OnFs Layer (MOpenFile name flag perm)] /\
    final o = mkUnion (base v) (snd r) in
  (mutating_intent flag -> BaseOnly base_fs layer_fs name u ->
     (forall err, result m = Some err ->
        result o = (None, Some err) /\
        issued o = issued c ++ [CopyToLayer name] /\
        final o = final m) /\
     (result m = None ->
        opened (issued c ++ [CopyToLayer name]) (final m))) /\
  (mutating_intent flag -> OverlayPresent base_fs layer_fs name u ->
     opened (issued c) (final c)) /\
  (~ mutating_intent flag -> BaseOnly base_fs layer_fs name u ->
     let r := fs_OpenFile base_fs name flag perm (base (final c)) in
     result o = as_File (fst r) /\
     issued o = issued c ++ [OnFs Base (MOpenFile name flag perm)] /\
     final o = mkUnion (snd r) (layer (final c))) /\
  (~ mutating_intent flag -> OverlayPresent base_fs layer_fs name u ->
     opened (issued c) (final c)).
Proof.
  unfold BaseOnly, OverlayPresent.
  pose proof (wants_write_iff flag) as W.
  unfold_union.
  destruct (wants_write flag).
  - assert (Wt : mutating_intent flag) by (apply W; reflexivity). clear W.
    destruct (fs_Stat layer_fs name (layer u)) as [[fi [err|]] l']; cbn.
    + destruct (fs_Stat base_fs name (base u)) as [[fi' [e|]] b']; cbn;
        try destruct (copy_file name b' l') as [[ce|] [b'' l'']]; cbn;
        repeat split; intros; try discriminate; try congruence; try tauto.
    + repeat split; intros; try discriminate; try congruence; try tauto.
  - assert (Wf : ~ mutating_intent flag)
      by (intro A; apply W in A; discriminate).
    clear W.
    destruct (fs_Stat layer_fs name (layer u)) as [[fi [err|]] l']; cbn.
    + destruct (fs_Stat base_fs name (base u)) as [[fi' [e|]] b']; cbn;
        repeat split; intros; try discriminate; try congruence; try tauto.
    + repeat split; intros; try discriminate; try congruence; try tauto.
Qed.

(** C7: [Chtimes] and [Chmod] on a base-only path first copy the file to the
    overlay.  A failed copy is returned and neither layer receives the
    change; after a successful copy, and for a path present in the overlay,
    the change is made by the overlay's method and by nothing else. *)
Theorem metadata_change_copies_first name atime mtime mode u :
  let c := isBaseFile base_fs layer_fs name u in
  let m := copyToLayer copy_file name (final c) in
  let changes (meth : method) (change : SL -> option error * SL)
              (o : Outcome SB SL (option error)) : Prop :=
    let applied (before : list call) (v : CopyOnWriteUnionFs SB SL) : Prop :=
      result o = fst (change (layer v)) /\
      issued o = before ++ [OnFs Layer meth] /\
      final o = mkUnion (base v) (snd (change (layer v))) in
    (BaseOnly base_fs layer_fs name u ->
       (forall err, result m = Some err ->
          result o = Some err /\
          issued o = issued c ++ [CopyToLayer name] /\
          final o = final m) /\
       (result m = None ->
          applied (issued c ++ [CopyToLayer name]) (final m))) /\
    (OverlayPresent base_fs layer_fs name u ->
       applied (issued c) (final c)) in
  changes (MChtimes name atime mtime) (fs_Chtimes layer_fs name atime mtime)
    (Chtimes base_fs layer_fs copy_file name atime mtime u) /\
  changes (MChmod name mode) (fs_Chmod layer_fs name mode)
    (Chmod base_fs layer_fs copy_file name mode u).
Proof.
  unfold BaseOnly, OverlayPresent. unfold_union.
  split;
    (destruct (fs_Stat layer_fs name (layer u)) as [[fi [err|]] l']; cbn;
     [ destruct (fs_Stat base_fs name (base u)) as [[fi' [e|]] b']; cbn;
       try destruct (copy_file name b' l') as [[ce|] [b'' l'']]; cbn
     | ]);
    repeat split; intros; try discriminate; try congruence.
Qed.

(** C8: [Open] of a base-only path is the base's [Open], with no merge.
    For a path present in the overlay that is not a directory there, it is
    the overlay's [Open].  For an overlay directory the base is opened with
    its error dropped, then the overlay; the overlay's error ends the call
    only when the base gave no handle, and in every other case the result is
    the [UnionFile] of the two handles.  No other path of [Open], and neither
    [OpenFile] nor [Create], builds a [UnionFile]. *)
Theorem Open_merges_overlay_directories name u :
  let c := isBaseFile base_fs layer_fs name u in
  let d := IsDir base_fs layer_fs Layer name (final c) in
  let o := Open base_fs layer_fs name u in
  let bo := fs_Open base_fs name (base (final d)) in
  let lo := fs_Open layer_fs name (layer (final d)) in
  let fatal := snd (fst lo) <> None /\ fst (fst bo) = None in
  (BaseOnly base_fs layer_fs name u ->
     let r := fs_Open base_fs name (base (final c)) in
     result o = as_File (fst r) /\
     issued o = issued c ++ [OnFs Base (MOpen name)] /\
     final o = mkUnion (snd r) (layer (final c))) /\
  (OverlayPresent base_fs layer_fs name u -> result d = (false, None) ->
     let r := fs_Open layer_fs name (layer (final d)) in
     result o = as_File (fst r) /\
     issued o = issued c ++ issued d ++ [OnFs Layer (MOpen name)] /\
     final o = mkUnion (base (final d)) (snd r)) /\
  (OverlayPresent base_fs layer_fs name u -> result d = (true, None) ->
     issued o =
       issued c ++ issued d ++ [OnFs Base (MOpen name); OnFs Layer (MOpen name)]
     /\ final o = mkUnion (snd bo) (snd lo) /\
     (fatal -> result o = (None, snd (fst lo))) /\
     (~ fatal ->
        result o = (Some (UnionFile (fst (fst bo)) (fst (fst lo))), None))) /\
  (is_UnionFile (fst (result o)) = true <->
     OverlayPresent base_fs layer_fs name u /\
     result d = (true, None) /\ ~ fatal) /\
  (forall flag perm,
     is_UnionFile
       (fst (result (OpenFile base_fs layer_fs copy_file name flag perm u)))
     = false) /\
  is_UnionFile (fst (result (Create base_fs layer_fs copy_file name u)))
  = false.
Proof.
  cbv zeta.
  unfold BaseOnly, OverlayPresent, Open, OpenFile, Create, bind.
  destruct (isBaseFile base_fs layer_fs name u) as [[[|] [ce|]] v ic]; simp.
  all: destruct (IsDir base_fs layer_fs Layer name v) as [[[|] [de|]] w idd];
    simp.
  all: unfold_calls; destruct v as [vb vl], w as [wb wl]; simp.
  all: parts; finish.
  all: repeat answer; finish.
Qed.

(** C9: [Mkdir] and [MkdirAll] are the same computation, and both are the
    spec's [makeDirectory]: the base is looked up; when the lookup fails or
    the entry is not a directory the overlay's [MkdirAll] is called and its
    answer returned; when the base has a directory there the answer is
    [EEXIST] and the overlay is not called. *)
Theorem Mkdir_is_MkdirAll name perm u :
  let b := fs_Stat base_fs name (base u) in
  let o := Mkdir base_fs layer_fs name perm u in
  let base_dir :=
    snd (fst b) = None /\
    exists fi, fst (fst b) = Some fi /\ fi_IsDir fi = true in
  o = MkdirAll base_fs layer_fs name perm u /\
  o = spec_makeDirectory base_fs layer_fs name perm u /\
  (~ base_dir ->
     let r := fs_MkdirAll layer_fs name perm (layer u) in
     result o = fst r /\
     issued o = [OnFs Base (MStat name); OnFs Layer (MMkdirAll name perm)] /\
     final o = mkUnion (snd b) (snd r)) /\
  (base_dir ->
     result o = Some EEXIST /\
     issued o = [OnFs Base (MStat name)] /\
     final o = mkUnion (snd b) (layer u)).
Proof.
  clear copy_file. cbv zeta.
  unfold Mkdir, MkdirAll, spec_makeDirectory, IsDir, bind.
  unfold_calls. destruct u as [ub ul]; simp.
  destruct (fs_Stat base_fs name ub) as [[[fi|] [e|]] b']; simp;
    try destruct (fi_IsDir fi) eqn:D; simp; parts; finish.
  all: try (exfalso;
            match goal with N : ~ _ |- _ => apply N end;
            split; [reflexivity | eexists; split; [reflexivity | exact D]]).
  all: try match goal with
         | B : _ /\ (exists _, _) |- _ =>
             destruct B as [? [? [? ?]]]; congruence
         end.
Qed.

(** C10: when the classification of [Create]'s path ends in an error, as it
    does for a path that neither layer knows, [Create] drops that error,
    copies nothing, calls the overlay's [Create] and returns its answer. *)
Theorem Create_drops_classification_error name u :
  let l := fs_Stat layer_fs name (layer u) in
  let b := fs_Stat base_fs name (base u) in
  let c := isBaseFile base_fs layer_fs name u in
  let o := Create base_fs layer_fs copy_file name u in
  (snd (fst l) <> None -> snd (fst b) <> None -> snd (result c) <> None) /\
  (snd (result c) <> None ->
     let r := fs_Create layer_fs name (layer (final c)) in
     result o = as_File (fst r) /\
     issued o = issued c ++ [OnFs Layer (MCreate name)] /\
     final o = mkUnion (base (final c)) (snd r) /\
     existsb is_copy (issued o) = false).
Proof.
  cbv zeta. unfold Create, isBaseFile, bind.
  unfold_calls. destruct u as [ub ul]; simp.
  destruct (fs_Stat layer_fs name ul) as [[fi [e|]] l']; simp;
    destruct (fs_Stat base_fs name ub) as [[fi' [e'|]] b']; simp;
    parts; finish.
Qed.

(** *** The base is only read *)

Lemma spares_ret {A : Type} (a : A) : spares (SB:=SB) (SL:=SL) (ret a).
Proof. intro u. constructor. Qed.

Lemma spares_bind {A B : Type} (m : M SB SL A) (k : A -> M SB SL B) :
  spares m -> (forall a, spares (k a)) -> spares (bind m k).
Proof.
  intros Hm Hk u. unfold bind; simp.
  apply Forall_app. split; [apply Hm | apply Hk].
Qed.

Lemma spares_call_layer {A : Type} (m : method) (f : SL -> A * SL) :
  spares (SB:=SB) (call_layer m f).
Proof. intro u. repeat constructor. Qed.

Lemma spares_call_base {A : Type} (m : method) (f : SB -> A * SB) :
  reads_only m = true -> spares (SL:=SL) (call_base m f).
Proof. intros R u. repeat constructor. exact R. Qed.

Lemma spares_copyToLayer name : spares (copyToLayer copy_file name).
Proof. intro u. repeat constructor. Qed.

Lemma keeps_ret {A : Type} (a : A) : keeps_base (SB:=SB) (SL:=SL) (ret a).
Proof. intro u. reflexivity. Qed.

Lemma keeps_bind {A B : Type} (m : M SB SL A) (k : A -> M SB SL B) :
  keeps_base m -> (forall a, keeps_base (k a)) -> keeps_base (bind m k).
Proof.
  intros Hm Hk u. unfold bind; simp. rewrite Hk. apply Hm.
Qed.

Lemma keeps_call_layer {A : Type} (m : method) (f : SL -> A * SL) :
  keeps_base (SB:=SB) (call_layer m f).
Proof. intro u. reflexivity. Qed.

Lemma keeps_call_base {A : Type} (m : method) (f : SB -> A * SB) :
  (forall s, snd (f s) = s) -> keeps_base (SL:=SL) (call_base m f).
Proof. intros P u. apply P. Qed.

(** Takes a method apart along its binds and branches. *)
Ltac along_the_flow step :=
  repeat first
    [ apply spares_bind | apply keeps_bind
    | apply spares_ret | apply keeps_ret
    | apply spares_call_layer | apply keeps_call_layer
    | apply spares_copyToLayer
    | step
    | match goal with
      | |- forall _, _ => intro
      | |- spares (match ?x with _ => _ end) => destruct x eqn:?
      | |- keeps_base (match ?x with _ => _ end) => destruct x eqn:?
      end ].

Lemma spares_every_operation (op : Operation) (u : CopyOnWriteUnionFs SB SL) :
  Forall (fun c => spares_base c = true)
    (snd (perform base_fs layer_fs copy_file op u)).
Proof.
  assert (S : forall (A : Type) (m : M SB SL A) v,
             spares m -> Forall (fun c => spares_base c = true)
                           (snd (forget (m v))))
    by (intros A m v Hm; apply Hm).
  destruct op; cbn [perform]; apply S;
    unfold Stat, Open, OpenFile, Create, Remove, RemoveAll, Rename, Chtimes,
      Chmod, Mkdir, MkdirAll, isBaseFile, IsDir, layer_OpenFile,
      layer_Create, layer_MkdirAll, open_on, stat_on, fs_call;
    along_the_flow
      ltac:(apply spares_call_base; cbn [reads_only];
            first [reflexivity
                  | match goal with
                    | W : wants_write _ = false |- _ => rewrite W; reflexivity
                    end]).
Qed.

Lemma keeps_every_operation (op : Operation) (u : CopyOnWriteUnionFs SB SL) :
  reads_purely base_fs copy_file ->
  base (fst (perform base_fs layer_fs copy_file op u)) = base u.
Proof.
  intros (PStat & POpen & POpenFile & PCopy).
  assert (S : forall (A : Type) (m : M SB SL A) v,
             keeps_base m -> base (fst (forget (m v))) = base v)
    by (intros A m v Hm; apply Hm).
  assert (C : forall name, keeps_base (copyToLayer copy_file name))
    by (intros name v; apply PCopy).
  destruct op; cbn [perform]; apply S;
    unfold Stat, Open, OpenFile, Create, Remove, RemoveAll, Rename, Chtimes,
      Chmod, Mkdir, MkdirAll, isBaseFile, IsDir, layer_OpenFile,
      layer_Create, layer_MkdirAll, open_on, stat_on, fs_call;
    along_the_flow
      ltac:(first [ apply C
                  | apply keeps_call_base; intro;
                    first [apply PStat | apply POpen
                          | apply POpenFile; assumption] ]).
Qed.

(** C1: whatever the two layers hold, no public operation issues a call on
    the base other than [Stat], [Open] and an [OpenFile] without writing
    flags (the copy helper reads the base as its source); so, on a base
    whose reading methods leave it as it is, the base after the operation is
    the base before it. *)
Theorem base_never_mutated (op : Operation) (u : CopyOnWriteUnionFs SB SL) :
  Forall (fun c => spares_base c = true)
    (snd (perform base_fs layer_fs copy_file op u)) /\
  (reads_purely base_fs copy_file ->
   base (fst (perform base_fs layer_fs copy_file op u)) = base u).
Proof.
  split; [apply spares_every_operation | apply keeps_every_operation].
Qed.

End Properties.

(** ** Closed instances *)

Lemma no_write_no_create_no_trunc (flag : Z) :
  wants_write flag = false ->
  Z.land flag O_CREATE = 0 /\ Z.land flag O_TRUNC = 0.
Proof.
  intros W.
  assert (N : ~ mutating_intent flag)
    by (intro A; apply wants_write_iff in A; congruence).
  unfold mutating_intent in N.
  destruct (Z.eq_dec (Z.land flag O_CREATE) 0);
    destruct (Z.eq_dec (Z.land flag O_TRUNC) 0); tauto.
Qed.

Lemma Mem_reads_purely : reads_purely Mem.fs Mem.copy.
Proof.
  repeat split.
  - intros name s. cbn. destruct (Mem.find name s); reflexivity.
  - intros name s. cbn. unfold Mem.open.
    destruct (Mem.find name s); reflexivity.
  - intros name flag perm s W.
    apply no_write_no_create_no_trunc in W as [C T]. cbn.
    rewrite C, T. destruct (Mem.find name s); reflexivity.
  - intros name b l. unfold Mem.copy.
    destruct (Mem.find name b); reflexivity.
Qed.

(** C1, run: opening the base's [/a.txt] for writing leaves the base as it
    was. *)
Lemma base_never_mutated_run :
  base (fst (perform Mem.fs Mem.fs Mem.copy
               (OpOpenFile "/a.txt" (Z.lor O_WRONLY O_CREATE) 420)
               Run.only_base))
  = base Run.only_base.
Proof.
  apply (proj2 (base_never_mutated Mem.fs Mem.fs Mem.copy
                  (OpOpenFile "/a.txt" (Z.lor O_WRONLY O_CREATE) 420)
                  Run.only_base)).
  exact Mem_reads_purely.
Defined.

(** C2, as stated, fails: an overlay whose [Stat] answers [EIO], which is not
    [ENOENT], over a base that has the file.  [isBaseFile] does not return
    [EIO]: it asks the base and answers [(true, nil)], and the calling
    [Chmod] goes on to copy the file and succeeds. *)
Lemma isBaseFile_overlay_error_dropped :
  let layer_fs := Mem.stat_failing EIO in
  let o := isBaseFile Mem.fs layer_fs "/a.txt" Run.only_base in
  snd (fst (fs_Stat layer_fs "/a.txt" (layer Run.only_base))) = Some EIO /\
  EIO <> ENOENT /\
  result o = (true, None) /\
  issued o = [OnFs Layer (MStat "/a.txt"); OnFs Base (MStat "/a.txt")] /\
  result (Chmod Mem.fs layer_fs Mem.copy "/a.txt" 384 Run.only_base) = None.
Proof. repeat split; try reflexivity. discriminate. Qed.

(** C3, run: [OpenFile] for writing on the base's [/a.txt] copies the file
    and opens the overlay's copy. *)
Lemma OpenFile_routing_run :
  let flag := Z.lor O_WRONLY O_CREATE in
  let o := OpenFile Mem.fs Mem.fs Mem.copy "/a.txt" flag 420 Run.only_base in
  result o = (Some (FsFile "/a.txt"), None) /\
  issued o = [OnFs Layer (MStat "/a.txt"); OnFs Base (MStat "/a.txt");
              CopyToLayer "/a.txt"; OnFs Layer (MOpenFile "/a.txt" flag 420)]
  /\ final o = mkUnion (base Run.only_base) [("/a.txt", Mem.hello)].
Proof.
  refine (proj2 (proj1 (OpenFile_routing Mem.fs Mem.fs Mem.copy "/a.txt"
                          (Z.lor O_WRONLY O_CREATE) 420 Run.only_base)
                   _ _) _).
  - left. vm_compute. discriminate.
  - reflexivity.
  - reflexivity.
Defined.

(** C4, run: [Stat] of a path the overlay does not know returns the base's
    metadata. *)
Lemma Stat_overlay_first_run :
  let o := Stat Mem.fs Mem.fs "/a.txt" Run.only_base in
  result o = (Some (Mem.info "/a.txt" Mem.hello), None) /\
  issued o = [OnFs Layer (MStat "/a.txt"); OnFs Base (MStat "/a.txt")] /\
  final o = Run.only_base.
Proof.
  refine (proj1 (proj2 (Stat_overlay_first Mem.fs Mem.fs "/a.txt"
                          Run.only_base)) _).
  reflexivity.
Defined.

(** C5, run: [Remove] of a path that only the base has answers [EPERM];
    [Remove] of a path both layers have removes the overlay's entry and
    leaves the base's. *)
Lemma removal_overlay_first_run :
  result (Remove Mem.fs Mem.fs "/a.txt" Run.only_base) = Some EPERM /\
  (let o := Remove Mem.fs Mem.fs "/a.txt" Run.shadowed in
   result o = None /\
   issued o = [OnFs Layer (MRemove "/a.txt")] /\
   final o = mkUnion (base Run.shadowed) [("/d", Mem.a_dir)]).
Proof.
  split.
  - refine (proj1 (proj1 (proj1 (removal_overlay_first Mem.fs Mem.fs
                                   "/a.txt" Run.only_base)) _) _);
      reflexivity.
  - refine (proj2 (proj1 (removal_overlay_first Mem.fs Mem.fs "/a.txt"
                            Run.shadowed)) _).
    discriminate.
Defined.

(** C6, run: [Rename] of a path that only the base has answers [EPERM] after
    the two [Stat] calls of the classification. *)
Lemma Rename_base_only_forbidden_run :
  let o := Rename Mem.fs Mem.fs "/a.txt" "/z.txt" Run.only_base in
  result o = Some EPERM /\
  issued o = [OnFs Layer (MStat "/a.txt"); OnFs Base (MStat "/a.txt")] /\
  issued o = issued (isBaseFile Mem.fs Mem.fs "/a.txt" Run.only_base) /\
  final o = final (isBaseFile Mem.fs Mem.fs "/a.txt" Run.only_base).
Proof.
  refine (proj1 (Rename_base_only_forbidden Mem.fs Mem.fs "/a.txt" "/z.txt"
                   Run.only_base) _).
  reflexivity.
Defined.

(** C7, run: with a copy helper that fails, [Chtimes] on the base's [/a.txt]
    returns the helper's error and the overlay stays empty. *)
Lemma metadata_change_copies_first_run :
  let o := Chtimes Mem.fs Mem.fs (Mem.copy_failing EIO) "/a.txt" 1 2
             Run.only_base in
  result o = Some EIO /\
  issued o = [OnFs Layer (MStat "/a.txt"); OnFs Base (MStat "/a.txt");
              CopyToLayer "/a.txt"] /\
  final o = Run.only_base.
Proof.
  refine (proj1 (proj1 (proj1 (metadata_change_copies_first Mem.fs Mem.fs
                                 (Mem.copy_failing EIO) "/a.txt" 1 2 384
                                 Run.only_base)) _) EIO _).
  - reflexivity.
  - reflexivity.
Defined.

(** C8, run: [Open] of a directory that both layers have returns the
    [UnionFile] of the two handles. *)
Lemma Open_merges_overlay_directories_run :
  result (Open Mem.fs Mem.fs "/d" Run.shadowed)
  = (Some (UnionFile (Some "/d") (Some "/d")), None).
Proof.
  refine (proj2 (proj2 (proj2 (proj1 (proj2 (proj2
            (Open_merges_overlay_directories Mem.fs Mem.fs Mem.copy "/d"
               Run.shadowed))) _ _))) _).
  - reflexivity.
  - reflexivity.
  - intros [N _]. apply N. reflexivity.
Defined.

(** C9, run: [Mkdir] of a path that is a directory in the base answers
    [EEXIST] and calls nothing on the overlay. *)
Lemma Mkdir_is_MkdirAll_run :
  let o := Mkdir Mem.fs Mem.fs "/d" 493 Run.only_base in
  result o = Some EEXIST /\
  issued o = [OnFs Base (MStat "/d")] /\
  final o = Run.only_base.
Proof.
  refine (proj2 (proj2 (proj2 (Mkdir_is_MkdirAll Mem.fs Mem.fs "/d" 493
                                 Run.only_base))) _).
  split; [reflexivity|].
  exists (Mem.info "/d" Mem.a_dir). split; reflexivity.
Defined.

(** C10, run: [Create] of a path that neither layer has: the classification
    ends in [ENOENT], and [Create] still succeeds on the overlay. *)
Lemma Create_drops_classification_error_run :
  let c := isBaseFile Mem.fs Mem.fs "/new.txt" Run.only_base in
  let o := Create Mem.fs Mem.fs Mem.copy "/new.txt" Run.only_base in
  result c = (true, Some ENOENT) /\
  (result o = (Some (FsFile "/new.txt"), None) /\
   issued o = issued c ++ [OnFs Layer (MCreate "/new.txt")] /\
   final o = mkUnion (base Run.only_base)
               [("/new.txt", Mem.mkEntry false "" 420 0)] /\
   existsb is_copy (issued o) = false).
Proof.
  split; [reflexivity|].
  refine (proj2 (Create_drops_classification_error Mem.fs Mem.fs Mem.copy
                   "/new.txt" Run.only_base) _).
  discriminate.
Defined.

(** ** Further properties of the union *)

Section Routing.

Context {H SB SL : Type}.
Variable base_fs : Fs H SB.
Variable layer_fs : Fs H SL.
Variable copy_file : string -> SB -> SL -> option error * (SB * SL).

Implicit Types (u : CopyOnWriteUnionFs SB SL) (name : string).

(** X1: when [isBaseFile] ends in an error, which is then the error of the
    base's [Stat], the operations that check it ([Chtimes], [Chmod],
    [Rename], [OpenFile] with any flag, [Open]) return that error and call
    nothing further: no copy, no overlay method. *)
Theorem classification_error_aborts name u err :
  let c := isBaseFile base_fs layer_fs name u in
  let aborted (A : Type) (o : Outcome SB SL A) (r : A) : Prop :=
    result o = r /\ issued o = issued c /\ final o = final c in
  snd (result c) = Some err ->
  snd (fst (fs_Stat base_fs name (base u))) = Some err /\
  (forall atime mtime,
     aborted _ (Chtimes base_fs layer_fs copy_file name atime mtime u)
       (Some err)) /\
  (forall mode,
     aborted _ (Chmod base_fs layer_fs copy_file name mode u) (Some err)) /\
  (forall newname,
     aborted _ (Rename base_fs layer_fs name newname u) (Some err)) /\
  (forall flag perm,
     aborted _ (OpenFile base_fs layer_fs copy_file name flag perm u)
       (None, Some err)) /\
  aborted _ (Open base_fs layer_fs name u) (None, Some err).
Proof.
  cbv zeta. intros E. split.
  - revert E. unfold isBaseFile, bind. unfold_calls.
    destruct u as [ub ul]; simp.
    destruct (fs_Stat layer_fs name ul) as [[fi [e|]] l']; simp;
      [tauto | discriminate].
  - unfold Chtimes, Chmod, Rename, OpenFile, Open, bind.
    destruct (isBaseFile base_fs layer_fs name u) as [[cb ce] v ic]; simp.
    subst ce. simp.
    repeat split; apply app_nil_r.
Qed.

(** X2: [Create] on a base-only path copies the file first; a failed copy
    ends the call with that error before the overlay's [Create] is called, a
    successful one is followed by the overlay's [Create].  On a path present
    in the overlay, [Create] is the overlay's [Create] alone. *)
Theorem Create_routing name u :
  let c := isBaseFile base_fs layer_fs name u in
  let m := copyToLayer copy_file name (final c) in
  let o := Create base_fs layer_fs copy_file name u in
  let created (before : list call) (v : CopyOnWriteUnionFs SB SL) : Prop :=
    let r := fs_Create layer_fs name (layer v) in
    result o = as_File (fst r) /\
    issued o = before ++ [OnFs Layer (MCreate name)] /\
    final o = mkUnion (base v) (snd r) in
  (BaseOnly base_fs layer_fs name u ->
     (forall err, result m = Some err ->
        result o = (None, Some err) /\
        issued o = issued c ++ [CopyToLayer name] /\
        final o = final m) /\
     (result m = None -> created (issued c ++ [CopyToLayer name]) (final m)))
  /\
  (OverlayPresent base_fs layer_fs name u -> created (issued c) (final c)).
Proof.
  cbv zeta. unfold BaseOnly, OverlayPresent, Create, bind.
  destruct (isBaseFile base_fs layer_fs name u) as [[[|] [ce|]] v ic]; simp;
    unfold_calls; destruct v as [vb vl]; simp;
    try destruct (copy_file name vb vl) as [[e|] [b' l']]; simp;
    parts; finish.
  rewrite <- app_assoc. reflexivity.
Qed.

(** X3: [Open] asks [IsDir] about the overlay after the classification has
    found the path there.  When that second lookup fails, [Open] returns its
    error and opens nothing on either layer. *)
Theorem Open_second_lookup_error name u err :
  let c := isBaseFile base_fs layer_fs name u in
  let d := IsDir base_fs layer_fs Layer name (final c) in
  let o := Open base_fs layer_fs name u in
  OverlayPresent base_fs layer_fs name u ->
  snd (result d) = Some err ->
  result o = (None, Some err) /\
  issued o = issued c ++ issued d /\
  final o = final d /\
  existsb (fun k => match k with OnFs _ (MOpen _) => true | _ => false end)
    (issued o) = false.
Proof.
  cbv zeta. unfold OverlayPresent, Open, IsDir, isBaseFile, bind.
  unfold_calls. destruct u as [ub ul]; simp.
  destruct (fs_Stat layer_fs name ul) as [[fi [e|]] l']; simp;
    [discriminate|].
  intros _.
  destruct (fs_Stat layer_fs name l') as [[fi' [e'|]] l'']; simp;
    intros E; [|discriminate].
  injection E as ->. repeat split.
Qed.

End Routing.

(** Like [answer], and also splits on a comparison with [ENOENT]. *)
Ltac answer_or_compare :=
  first
    [ answer
    | match goal with
      | |- context [error_eqb ?e ENOENT] =>
          is_var e; destruct (error_eqb e ENOENT); simp
      end ].

Ltac unfold_operations :=
  unfold Stat, Open, OpenFile, Create, Remove, RemoveAll, Rename, Chtimes,
    Chmod, Mkdir, MkdirAll, isBaseFile, IsDir, bind;
  unfold_calls.

Section Calls.

Context {H SB SL : Type}.
Variable base_fs : Fs H SB.
Variable layer_fs : Fs H SL.
Variable copy_file : string -> SB -> SL -> option error * (SB * SL).

Implicit Types (u : CopyOnWriteUnionFs SB SL) (name : string).

(** X4: a copy to the overlay is made exactly when an operation that may
    write ([Chtimes], [Chmod], [Create], [OpenFile] under a writing flag)
    meets a path classified base-only without error.  [Stat], [Open],
    [Rename], [Remove], [RemoveAll], [Mkdir], [MkdirAll] and a read-only
    [OpenFile] never copy, and no operation copies twice. *)
Theorem copy_exactly_on_first_write (op : Operation) u :
  let calls := snd (perform base_fs layer_fs copy_file op u) in
  (existsb is_copy calls = true <->
   match write_target op with
   | Some name => BaseOnly base_fs layer_fs name u
   | None => False
   end) /\
  (length (filter is_copy calls) <= 1)%nat.
Proof.
  cbv zeta. unfold BaseOnly.
  destruct op; cbn [perform forget snd write_target];
    try destruct (wants_write flag) eqn:W;
    unfold_operations; try rewrite W; destruct u as [ub ul]; simp;
    repeat answer_or_compare;
    cbn [existsb is_copy orb filter length];
    (split; [split; intro X; first [discriminate X | reflexivity | tauto]
            | repeat constructor]).
Qed.

(** X5: no operation makes more than four calls to its collaborators, the
    copy helper counted as one. *)
Theorem at_most_four_calls (op : Operation) u :
  (length (snd (perform base_fs layer_fs copy_file op u)) <= 4)%nat.
Proof.
  destruct op; cbn [perform forget snd];
    unfold_operations; destruct u as [ub ul]; simp;
    repeat answer_or_compare;
    cbn [length]; repeat constructor.
Qed.

End Calls.

Section Reads.

Context {H SB SL : Type}.
Variable base_fs : Fs H SB.
Variable layer_fs : Fs H SL.
Variable copy_file : string -> SB -> SL -> option error * (SB * SL).

Implicit Types (u : CopyOnWriteUnionFs SB SL) (name : string).

Lemma issues_only_ret {A : Type} (P : call -> bool) (a : A) :
  issues_only (SB:=SB) (SL:=SL) P (ret a).
Proof. intro u. constructor. Qed.

Lemma issues_only_bind {A B : Type} (P : call -> bool)
  (m : M SB SL A) (k : A -> M SB SL B) :
  issues_only P m -> (forall a, issues_only P (k a)) ->
  issues_only P (bind m k).
Proof.
  intros Hm Hk u. unfold bind; simp.
  apply Forall_app. split; [apply Hm | apply Hk].
Qed.

Lemma issues_only_call_layer {A : Type} (P : call -> bool) (m : method)
  (f : SL -> A * SL) :
  P (OnFs Layer m) = true -> issues_only (SB:=SB) P (call_layer m f).
Proof. intros R u. repeat constructor. exact R. Qed.

Lemma issues_only_call_base {A : Type} (P : call -> bool) (m : method)
  (f : SB -> A * SB) :
  P (OnFs Base m) = true -> issues_only (SL:=SL) P (call_base m f).
Proof. intros R u. repeat constructor. exact R. Qed.

Lemma leaves_union_ret {A : Type} (a : A) :
  leaves_union (SB:=SB) (SL:=SL) (ret a).
Proof. intro u. reflexivity. Qed.

Lemma leaves_union_bind {A B : Type} (m : M SB SL A) (k : A -> M SB SL B) :
  leaves_union m -> (forall a, leaves_union (k a)) -> leaves_union (bind m k).
Proof. intros Hm Hk u. unfold bind; simp. rewrite Hk. apply Hm. Qed.

Lemma leaves_union_call_layer {A : Type} (m : method) (f : SL -> A * SL) :
  (forall s, snd (f s) = s) -> leaves_union (SB:=SB) (call_layer m f).
Proof. intros P [b l]. unfold call_layer; simp. rewrite P. reflexivity. Qed.

Lemma leaves_union_call_base {A : Type} (m : method) (f : SB -> A * SB) :
  (forall s, snd (f s) = s) -> leaves_union (SL:=SL) (call_base m f).
Proof. intros P [b l]. unfold call_base; simp. rewrite P. reflexivity. Qed.

Ltac through_the_reads step :=
  repeat first
    [ apply issues_only_bind | apply leaves_union_bind
    | apply issues_only_ret | apply leaves_union_ret
    | step
    | match goal with
      | |- forall _, _ => intro
      | |- issues_only _ (match ?x with _ => _ end) => destruct x eqn:?
      | |- leaves_union (match ?x with _ => _ end) => destruct x eqn:?
      end ].

(** X6: [Stat], [Open] and an [OpenFile] without writing flags only read:
    every call they make, on either layer, is [Stat], [Open] or an
    [OpenFile] without writing flags, and none is a copy.  Over two layers
    whose reading methods leave them as they are, such an operation leaves
    the whole union as it found it. *)
Theorem reads_change_nothing (op : Operation) u :
  read_operation op = true ->
  Forall (fun c => reading_call c = true)
    (snd (perform base_fs layer_fs copy_file op u)) /\
  (fs_reads_purely base_fs -> fs_reads_purely layer_fs ->
   fst (perform base_fs layer_fs copy_file op u) = u).
Proof.
  assert (I : forall (A : Type) (m : M SB SL A) v,
             issues_only reading_call m ->
             Forall (fun c => reading_call c = true) (snd (forget (m v))))
    by (intros A m v Hm; apply Hm).
  assert (L : forall (A : Type) (m : M SB SL A) v,
             leaves_union m -> fst (forget (m v)) = v)
    by (intros A m v Hm; apply Hm).
  intros R. destruct op; try discriminate R; cbn [perform read_operation] in *;
    try (apply negb_true_iff in R);
    (split;
     [ apply I | intros (BS & BO & BF) (LS & LO & LF); apply L ]);
    unfold Stat, Open, OpenFile, isBaseFile, IsDir, layer_OpenFile, open_on,
      stat_on, fs_call;
    try rewrite R.
  all: through_the_reads
         ltac:(first
                 [ apply issues_only_call_layer; cbn; try rewrite R;
                   reflexivity
                 | apply issues_only_call_base; cbn; try rewrite R;
                   reflexivity
                 | apply leaves_union_call_layer; intro;
                   first [apply LS | apply LO | apply LF; assumption]
                 | apply leaves_union_call_base; intro;
                   first [apply BS | apply BO | apply BF; assumption] ]).
Qed.

(** X7: [Stat] and the classification read an overlay error differently.
    When the overlay's [Stat] fails with an error other than the bare
    [syscall.ENOENT] and the base has the path, [Stat] returns the overlay's
    error, while [Open] and a read-only [OpenFile] classify the path as
    base-only and return what the base opens. *)
Theorem Stat_and_Open_disagree name flag perm u err :
  let l := fs_Stat layer_fs name (layer u) in
  let b := fs_Stat base_fs name (base u) in
  snd (fst l) = Some err -> err <> ENOENT -> snd (fst b) = None ->
  wants_write flag = false ->
  result (Stat base_fs layer_fs name u) = (None, Some err) /\
  BaseOnly base_fs layer_fs name u /\
  result (Open base_fs layer_fs name u)
  = as_File (fst (fs_Open base_fs name (snd b))) /\
  result (OpenFile base_fs layer_fs copy_file name flag perm u)
  = as_File (fst (fs_OpenFile base_fs name flag perm (snd b))).
Proof.
  cbv zeta. intros El Ne Eb W. unfold BaseOnly.
  unfold_operations. rewrite W. destruct u as [ub ul]; simp.
  destruct (fs_Stat layer_fs name ul) as [[fi [e|]] l']; simp;
    [|discriminate].
  injection El as ->. apply error_eqb_neq in Ne. rewrite Ne.
  destruct (fs_Stat base_fs name ub) as [[fi' [e'|]] b']; simp;
    [discriminate|].
  repeat split.
Qed.

(** X8: removal through the union uncovers the base.  When the overlay's
    [Remove] succeeds and the overlay then answers [ENOENT] for the path,
    the union's [Stat] returns what the base's [Stat] returns, and the path
    is classified by the base alone; the removal has not touched the base. *)
Theorem Remove_then_Stat_shows_base name u :
  let rm := fs_Remove layer_fs name (layer u) in
  let st := fs_Stat layer_fs name (snd rm) in
  let b := fs_Stat base_fs name (base u) in
  let u' := final (Remove base_fs layer_fs name u) in
  fst rm = None -> snd (fst st) = Some ENOENT ->
  base u' = base u /\
  result (Stat base_fs layer_fs name u') = fst b /\
  result (isBaseFile base_fs layer_fs name u') = (true, snd (fst b)).
Proof.
  cbv zeta. intros Er Es.
  unfold_operations. destruct u as [ub ul]; simp.
  destruct (fs_Remove layer_fs name ul) as [[e|] l']; simp;
    [discriminate|].
  destruct (fs_Stat layer_fs name l') as [[fi [e|]] l'']; simp;
    [|discriminate].
  injection Es as ->. cbn [error_eqb ENOENT Z.eqb Pos.eqb]. simp.
  repeat split.
Qed.

End Reads.

Section Paths.

Context {H SB SL : Type}.
Variable base_fs : Fs H SB.
Variable layer_fs : Fs H SL.
Variable copy_file : string -> SB -> SL -> option error * (SB * SL).

(** X9: every call an operation makes names a path the caller gave: the
    union hands paths on unchanged and never looks at a parent, a child or
    any other path. *)
Theorem only_the_given_paths (op : Operation)
  (u : CopyOnWriteUnionFs SB SL) :
  Forall (fun c => incl (call_paths c) (operation_paths op))
    (snd (perform base_fs layer_fs copy_file op u)).
Proof.
  destruct op; cbn [perform forget snd operation_paths];
    unfold_operations; destruct u as [ub ul]; simp;
    repeat answer_or_compare;
    repeat first [apply Forall_nil | apply Forall_cons];
    intros x Hx; cbn [call_paths method_paths In] in Hx |- *; tauto.
Qed.

End Paths.

(** ** Further closed instances *)

Lemma Mem_fs_reads_purely : fs_reads_purely Mem.fs.
Proof.
  repeat split.
  - intros name s. cbn. destruct (Mem.find name s); reflexivity.
  - intros name s. cbn. unfold Mem.open.
    destruct (Mem.find name s); reflexivity.
  - intros name flag perm s W.
    apply no_write_no_create_no_trunc in W as [C T]. cbn.
    rewrite C, T. destruct (Mem.find name s); reflexivity.
Qed.

(** X1, run: [OpenFile] with [O_WRONLY|O_CREATE] on a path neither layer has
    returns the base's [ENOENT] after the two lookups; the overlay's
    [OpenFile] is not called and nothing is created. *)
Lemma classification_error_aborts_run :
  let flag := Z.lor O_WRONLY O_CREATE in
  let o := OpenFile Mem.fs Mem.fs Mem.copy "/new.txt" flag 420
             Run.only_base in
  result o = (None, Some ENOENT) /\
  issued o = [OnFs Layer (MStat "/new.txt"); OnFs Base (MStat "/new.txt")] /\
  final o = Run.only_base.
Proof.
  refine (proj1 (proj2 (proj2 (proj2 (proj2
            (classification_error_aborts Mem.fs Mem.fs Mem.copy "/new.txt"
               Run.only_base ENOENT _)))))
            (Z.lor O_WRONLY O_CREATE) 420).
  reflexivity.
Defined.

(** X2, run: [Create] on the base's [/a.txt] copies it and then creates an
    empty file in its place on the overlay. *)
Lemma Create_routing_run :
  let o := Create Mem.fs Mem.fs Mem.copy "/a.txt" Run.only_base in
  result o = (Some (FsFile "/a.txt"), None) /\
  issued o = [OnFs Layer (MStat "/a.txt"); OnFs Base (MStat "/a.txt");
              CopyToLayer "/a.txt"; OnFs Layer (MCreate "/a.txt")] /\
  final o = mkUnion (base Run.only_base)
              [("/a.txt", Mem.mkEntry false "" 420 0)].
Proof.
  refine (proj2 (proj1 (Create_routing Mem.fs Mem.fs Mem.copy "/a.txt"
                          Run.only_base) _) _).
  - reflexivity.
  - reflexivity.
Defined.

(** X3, run: over an overlay whose [Stat] answers once and then fails,
    [Open] of the overlay's [/a.txt] returns the second lookup's [EIO]. *)
Lemma Open_second_lookup_error_run :
  let u := mkUnion (SB:=Mem.State) (SL:=Flaky.State)
             [("/a.txt", Mem.hello)] (false, [("/a.txt", Mem.hello)]) in
  let o := Open Mem.fs Flaky.fs "/a.txt" u in
  result o = (None, Some EIO) /\
  issued o = [OnFs Layer (MStat "/a.txt"); OnFs Layer (MStat "/a.txt")] /\
  final o = mkUnion (base u) (true, [("/a.txt", Mem.hello)]) /\
  existsb (fun k => match k with OnFs _ (MOpen _) => true | _ => false end)
    (issued o) = false.
Proof.
  refine (Open_second_lookup_error Mem.fs Flaky.fs "/a.txt"
            (mkUnion (SB:=Mem.State) (SL:=Flaky.State)
               [("/a.txt", Mem.hello)] (false, [("/a.txt", Mem.hello)]))
            EIO _ _).
  - reflexivity.
  - reflexivity.
Defined.

(** X6, run: [Open] of a directory both layers have leaves both as they
    were. *)
Lemma reads_change_nothing_run :
  fst (perform Mem.fs Mem.fs Mem.copy (OpOpen "/d") Run.shadowed)
  = Run.shadowed.
Proof.
  refine (proj2 (reads_change_nothing Mem.fs Mem.fs Mem.copy (OpOpen "/d")
                   Run.shadowed _) _ _).
  - reflexivity.
  - exact Mem_fs_reads_purely.
  - exact Mem_fs_reads_purely.
Defined.

(** X7, run: an overlay whose [Stat] answers with an [*os.PathError] that
    wraps the not-found number: [Stat] of the base's [/a.txt] fails with that
    error, [Open] of the same path returns the base's file. *)
Lemma Stat_and_Open_disagree_run :
  let wrapped := PathError "stat" "/a.txt" 2 in
  let layer_fs := Mem.stat_failing wrapped in
  result (Stat Mem.fs layer_fs "/a.txt" Run.only_base)
  = (None, Some wrapped) /\
  BaseOnly Mem.fs layer_fs "/a.txt" Run.only_base /\
  result (Open Mem.fs layer_fs "/a.txt" Run.only_base)
  = (Some (FsFile "/a.txt"), None) /\
  result (OpenFile Mem.fs layer_fs Mem.copy "/a.txt" O_RDONLY 0
            Run.only_base)
  = (Some (FsFile "/a.txt"), None).
Proof.
  refine (Stat_and_Open_disagree Mem.fs
            (Mem.stat_failing (PathError "stat" "/a.txt" 2)) Mem.copy
            "/a.txt" O_RDONLY 0 Run.only_base
            (PathError "stat" "/a.txt" 2) _ _ _ _).
  - reflexivity.
  - discriminate.
  - reflexivity.
  - reflexivity.
Defined.

(** X8, run: after [Remove] of the [/a.txt] both layers have, [Stat] shows
    the base's file. *)
Lemma Remove_then_Stat_shows_base_run :
  let u' := final (Remove Mem.fs Mem.fs "/a.txt" Run.shadowed) in
  base u' = base Run.shadowed /\
  result (Stat Mem.fs Mem.fs "/a.txt" u')
  = (Some (Mem.info "/a.txt" Mem.hello), None) /\
  result (isBaseFile Mem.fs Mem.fs "/a.txt" u') = (true, None).
Proof.
  refine (Remove_then_Stat_shows_base Mem.fs Mem.fs "/a.txt" Run.shadowed
            _ _).
  - reflexivity.
  - reflexivity.
Defined.
